(** * Investec MCP server: the access-token cache and the request helper

    A shallow embedding of [server.py]: the two module globals
    [access_token] and [token_expiry], the coroutine [get_access_token],
    the request helper [make_api_request] and the tool wrappers built on
    it.  The configuration, the wall clock and the HTTP transport are the
    environment [Env]; every function of the program is a computation in a
    state-and-exception monad over the module globals.

    Conventions.
    - A Python value that comes out of [response.json()] is a [json]; Python's
      [None] is [JNull].  JSON numbers are the integers (a non-integral
      number is outside this model).
    - A [datetime] is a number of microseconds since 0001-01-01T00:00:00,
      the range of the type being [0 .. DATETIME_MAX].
    - The [print(..., file=sys.stderr)] lines of the source write debugging
      text only and are left out. *)

From Stdlib Require Import ZArith String Ascii List Lia.
From stdpp Require Import base option list gmap strings.

#[local] Set Warnings "-register-all".
#[local] Open Scope string_scope.
#[local] Open Scope Z_scope.

(** ** Python values *)

Inductive json : Type :=
| JNull
| JBool (b : bool)
| JInt (n : Z)
| JStr (s : string)
| JList (l : list json)
| JDict (d : gmap string json).

(** Python truthiness, as [if x:] and [x and y] test it. *)
Definition truthy (v : json) : bool :=
  match v with
  | JNull => false
  | JBool b => b
  | JInt n => negb (n =? 0)
  | JStr s => negb (String.eqb s "")
  | JList l => match l with [] => false | _ :: _ => true end
  | JDict d => negb (bool_decide (d = ∅))
  end.

(** ** HTTP messages *)

(** The body of a response: text that parses as JSON (kept as its parsed
    value), or text that does not. *)
Inductive body : Type :=
| JsonBody (j : json)
| RawBody (text : string).

Record Response : Type := mkResponse {
  status_code : Z;
  content : body
}.

(** What the program hands to [httpx]: the verb of the client method called
    and its keyword arguments. *)
Record Request : Type := mkRequest {
  req_method : string;
  req_url : string;
  req_auth : option (string * string);
  req_headers : gmap string string;
  req_params : option (gmap string json);
  req_data : option (gmap string string);
  req_json : option (gmap string json)
}.

(** ** Exceptions *)

Inductive exn : Type :=
| HTTPStatusError (response : Response)   (* httpx, from raise_for_status *)
| TransportError (msg : string)           (* httpx: connect, timeout, ... *)
| JSONDecodeError                         (* response.json() on a non-JSON body *)
| KeyError (key : string)
| TypeError
| OverflowError
| ValueError (msg : string).

Inductive result (A : Type) : Type :=
| Return (a : A)
| Raise (e : exn).
Arguments Return {A} a.
Arguments Raise {A} e.

(** What the transport gives back for a request. *)
Inductive reply : Type :=
| Answers (r : Response)
| Fails (msg : string).

(** ** Library functions the program calls *)

(** [Response.is_success] of httpx: a 2xx status. *)
Definition is_success (r : Response) : bool :=
  (200 <=? status_code r) && (status_code r <=? 299).

(** [Response.raise_for_status()] (httpx 0.22 and later): any status outside
    2xx raises, and the exception carries the response. *)
Definition raise_for_status (r : Response) : result unit :=
  if is_success r then Return tt else Raise (HTTPStatusError r).

(** [Response.json()]. *)
Definition response_json (r : Response) : result json :=
  match content r with
  | JsonBody j => Return j
  | RawBody _ => Raise JSONDecodeError
  end.

(** [v[k]] for a string key [k]. *)
Definition py_getitem (v : json) (k : string) : result json :=
  match v with
  | JDict d =>
      match d !! k with
      | Some x => Return x
      | None => Raise (KeyError k)
      end
  | _ => Raise TypeError
  end.

(** [v - n] for an integer [n]; a [bool] is an [int] in Python. *)
Definition py_sub (v : json) (n : Z) : result Z :=
  match v with
  | JInt m => Return (m - n)
  | JBool b => Return (Z.b2z b - n)
  | _ => Raise TypeError
  end.

(** [datetime.max], in microseconds since 0001-01-01T00:00:00:
    3652059 days, less one microsecond. *)
Definition DATETIME_MAX : Z := 3652059 * 86400 * 1000000 - 1.

(** [now + timedelta(seconds=s)]: [OverflowError] when the [timedelta] or
    the sum leaves the range of its type (a [timedelta] out of range always
    takes the sum out of range too). *)
Definition datetime_add_seconds (now s : Z) : result Z :=
  let t := now + s * 1000000 in
  if (0 <=? t) && (t <=? DATETIME_MAX) then Return t else Raise OverflowError.

(** [str.upper()] on ASCII text. *)
Definition upper_ascii (c : ascii) : ascii :=
  let n := nat_of_ascii c in
  if ((97 <=? n) && (n <=? 122))%nat then ascii_of_nat (n - 32) else c.

Fixpoint upper (s : string) : string :=
  match s with
  | EmptyString => EmptyString
  | String c s' => String (upper_ascii c) (upper s')
  end.

(** Slices of a string: [s[:n]] and [s[-n:]] for [n > 0].  Python clips a
    slice to the string, so on a string shorter than [n] both are the whole
    string. *)
Fixpoint str_take (n : nat) (s : string) : string :=
  match n, s with
  | S n', String c s' => String c (str_take n' s')
  | _, _ => EmptyString
  end.

Fixpoint str_drop (n : nat) (s : string) : string :=
  match n, s with
  | S n', String _ s' => str_drop n' s'
  | _, _ => s
  end.

Definition py_head (n : nat) (s : string) : string := str_take n s.

Definition py_tail (n : nat) (s : string) : string :=
  str_drop (String.length s - n) s.

(** ** The environment *)

Class Env : Type := {
  (** Configuration read from the process environment at import time. *)
  CLIENT_ID : string;
  CLIENT_SECRET : string;
  API_KEY : string;
  USE_SANDBOX : option string;
  (** The [n]-th reading of [datetime.now()]. *)
  clock : nat -> Z;
  (** What the transport gives back for the [n]-th request handed to it. *)
  transport : nat -> Request -> reply;
  (** [str(v)] for a value that is not a string, as an f-string formats it. *)
  py_str : json -> string;
  (** [json.dumps(v, indent=2)]. *)
  json_dumps : json -> string
}.

(** ** The module globals and the monad *)

Record State : Type := mkState {
  access_token : json;          (* global; None until the first fetch *)
  token_expiry : option Z;      (* global; None until the first fetch *)
  ticks : nat;                  (* readings of datetime.now() taken so far *)
  sent : list Request           (* requests handed to the transport, oldest first *)
}.

(** The globals as the module body leaves them (lines 39-40). *)
Definition initial_state : State := mkState JNull None 0 [].

Definition Py (A : Type) : Type := State -> result A * State.

#[global] Instance Py_ret : MRet Py := fun A a s => (Return a, s).
#[global] Instance Py_bind : MBind Py := fun A B f m s =>
  match m s with
  | (Return a, s') => f a s'
  | (Raise e, s') => (Raise e, s')
  end.

(** A pure library call that may raise. *)
Definition lift {A} (r : result A) : Py A := fun s => (r, s).

Definition py_raise {A} (e : exn) : Py A := lift (Raise e).

Definition get_access_token_global : Py json :=
  fun s => (Return (access_token s), s).

Definition get_token_expiry_global : Py (option Z) :=
  fun s => (Return (token_expiry s), s).

Definition set_access_token (v : json) : Py unit :=
  fun s => (Return tt, mkState v (token_expiry s) (ticks s) (sent s)).

Definition set_token_expiry (t : Z) : Py unit :=
  fun s => (Return tt, mkState (access_token s) (Some t) (ticks s) (sent s)).

(** A call of [get_access_token] as the event loop sees it: a coroutine is
    suspended only where it awaits the transport. *)
Inductive task : Type :=
| Pending                   (* created, not yet run *)
| Awaiting (n : nat)        (* suspended in [await client.post]: request [n] is in flight *)
| Done (r : result json).   (* returned or raised *)

Definition is_awaiting (t : task) : bool :=
  match t with Awaiting _ => true | _ => false end.

Definition is_done (t : task) : bool :=
  match t with Done _ => true | _ => false end.

(** The event loop: the module globals, shared by all tasks, and the tasks. *)
Record Loop : Type := mkLoop {
  globals : State;
  tasks : list task
}.

Section Server.

Context `{Env}.

Definition BASE_URL : string :=
  if bool_decide (USE_SANDBOX = Some "true")
  then "https://openapisandbox.investec.com"
  else "https://openapi.investec.com".

Definition datetime_now : Py Z :=
  fun s =>
    (Return (clock (ticks s)),
     mkState (access_token s) (token_expiry s) (S (ticks s)) (sent s)).

(** An [await client.get/post(...)] in two halves: the request goes out
    and the coroutine is suspended; it is resumed with the reply. *)
Definition http_send (r : Request) : Py nat :=
  fun s =>
    (Return (length (sent s)),
     mkState (access_token s) (token_expiry s) (ticks s) (sent s ++ [r])).

Definition http_recv (n : nat) (r : Request) : Py Response :=
  match transport n r with
  | Answers resp => mret resp
  | Fails msg => py_raise (TransportError msg)
  end.

Definition http_call (r : Request) : Py Response :=
  n ← http_send r; http_recv n r.

(** *** get_access_token *)

(** [access_token and token_expiry and token_expiry > current_time];
    a [datetime] is always truthy. *)
Definition cache_usable (tok : json) (exp : option Z) (current_time : Z) : bool :=
  truthy tok &&
  match exp with
  | Some e => current_time <? e
  | None => false
  end.

Definition token_url : string := BASE_URL +:+ "/identity/v2/oauth2/token".

Definition token_request : Request :=
  {| req_method := "POST";
     req_url := token_url;
     req_auth := Some (CLIENT_ID, CLIENT_SECRET);
     req_headers := {[ "x-api-key" := API_KEY ]};
     req_params := None;
     req_data := Some {[ "grant_type" := "client_credentials" ]};
     req_json := None |}.

(** Lines 69-85: what runs once [client.post] has answered.  The left
    operand [datetime.now()] of line 80 is evaluated before
    [result["expires_in"]]; line 85 returns the global. *)
Definition store_token (response : Response) : Py json :=
  lift (raise_for_status response);;
  result ← lift (response_json response);
  tok ← lift (py_getitem result "access_token");
  set_access_token tok;;
  now ← datetime_now;
  expires_in ← lift (py_getitem result "expires_in");
  seconds ← lift (py_sub expires_in 60);
  expiry ← lift (datetime_add_seconds now seconds);
  set_token_expiry expiry;;
  get_access_token_global.

(** The [try ... except Exception as e: print(...); raise] of the source
    re-raises what it caught, so it adds nothing to the computation. *)
Definition get_access_token : Py json :=
  current_time ← datetime_now;
  tok ← get_access_token_global;
  exp ← get_token_expiry_global;
  if cache_usable tok exp current_time then mret tok
  else
    response ← http_call token_request;
    store_token response.

(** *** make_api_request *)

(** [f"{v}"]. *)
Definition format_value (v : json) : string :=
  match v with
  | JStr s => s
  | _ => py_str v
  end.

Definition make_api_request (method endpoint : string)
    (params json_data : option (gmap string json)) : Py json :=
  token ← get_access_token;
  let headers : gmap string string :=
    {[ "Authorization" := "Bearer " +:+ format_value token;
       "Accept" := "application/json" ]} in
  let url := BASE_URL +:+ endpoint in
  response ←
    (if String.eqb (upper method) "GET" then
       http_call (mkRequest "GET" url None headers params None None)
     else if String.eqb (upper method) "POST" then
       let headers := <[ "Content-Type" := "application/json" ]> headers in
       http_call (mkRequest "POST" url None headers params None json_data)
     else
       py_raise (ValueError ("Unsupported method: " +:+ method)));
  lift (raise_for_status response);;
  lift (response_json response).

(** *** Tools *)

Definition get_account_balance (accountId : string) : Py string :=
  result ← make_api_request "GET"
             ("/za/pb/v1/accounts/" +:+ accountId +:+ "/balance") None None;
  mret (json_dumps result).

(** The typed arguments of a tool as Python values. *)
Definition of_str (s : string) : json := JStr s.
Definition of_opt_str (o : option string) : json := from_option JStr JNull o.
Definition of_opt_bool (o : option bool) : json := from_option JBool JNull o.

(** Lines 156-164: the [params] dictionary of [get_account_transactions]. *)
Definition transactions_params (fromDate toDate : string)
    (transactionType : option string) (includePending : option bool)
    : gmap string json :=
  let params : gmap string json := ∅ in
  let params :=
    if truthy (of_str fromDate)
    then <[ "fromDate" := of_str fromDate ]> params else params in
  let params :=
    if truthy (of_str toDate)
    then <[ "toDate" := of_str toDate ]> params else params in
  let params :=
    if truthy (of_opt_str transactionType)
    then <[ "transactionType" := of_opt_str transactionType ]> params
    else params in
  let params :=
    if truthy (of_opt_bool includePending)
    then <[ "includePending" := JStr "true" ]> params else params in
  params.

Definition get_account_transactions (accountId fromDate toDate : string)
    (transactionType : option string) (includePending : option bool)
    : Py string :=
  let params :=
    transactions_params fromDate toDate transactionType includePending in
  result ← make_api_request "GET"
             ("/za/pb/v1/accounts/" +:+ accountId +:+ "/transactions")
             (Some params) None;
  mret (json_dumps result).

(** A [dict[str, str]] as a Python value. *)
Definition of_str_dict (d : gmap string string) : json := JDict (JStr <$> d).

(** Lines 273-276: the [data] dictionary of [transfer_multiple]. *)
Definition transfer_data (transferList : list (gmap string string))
    (profileId : option string) : gmap string json :=
  let data : gmap string json :=
    {[ "transferList" := JList (of_str_dict <$> transferList) ]} in
  match profileId with
  | Some p => <[ "profileId" := JStr p ]> data
  | None => data
  end.

Definition transfer_multiple (accountId : string)
    (transferList : list (gmap string string)) (profileId : option string)
    : Py string :=
  let data := transfer_data transferList profileId in
  result ← make_api_request "POST"
             ("/za/pb/v1/accounts/" +:+ accountId +:+ "/transfermultiple")
             None (Some data);
  mret (json_dumps result).

(** The other tools: each builds a path, and for some a query or a body,
    calls [make_api_request] and serialises what comes back. *)

Definition get_accounts : Py string :=
  result ← make_api_request "GET" "/za/pb/v1/accounts" None None;
  mret (json_dumps result).

Definition get_pending_transactions (accountId : string) : Py string :=
  result ← make_api_request "GET"
             ("/za/pb/v1/accounts/" +:+ accountId +:+ "/pending-transactions")
             None None;
  mret (json_dumps result).

Definition get_profiles : Py string :=
  result ← make_api_request "GET" "/za/pb/v1/profiles" None None;
  mret (json_dumps result).

Definition get_profile_accounts (profileId : string) : Py string :=
  result ← make_api_request "GET"
             ("/za/pb/v1/profiles/" +:+ profileId +:+ "/accounts") None None;
  mret (json_dumps result).

Definition get_beneficiaries : Py string :=
  result ← make_api_request "GET" "/za/pb/v1/accounts/beneficiaries" None None;
  mret (json_dumps result).

Definition get_beneficiary_categories : Py string :=
  result ← make_api_request "GET" "/za/pb/v1/accounts/beneficiarycategories"
             None None;
  mret (json_dumps result).

Definition get_profile_beneficiaries (profileId accountId : string)
    : Py string :=
  result ← make_api_request "GET"
             ("/za/pb/v1/profiles/" +:+ profileId +:+ "/accounts/" +:+
              accountId +:+ "/beneficiaries") None None;
  mret (json_dumps result).

Definition get_authorisation_setup_details (profileId accountId : string)
    : Py string :=
  result ← make_api_request "GET"
             ("/za/pb/v1/profiles/" +:+ profileId +:+ "/accounts/" +:+
              accountId +:+ "/authorisationsetupdetails") None None;
  mret (json_dumps result).

(** Lines 301-305; a payment is a [Dict[str, Any]]. *)
Definition pay_multiple (accountId : string)
    (paymentList : list (gmap string json)) : Py string :=
  let data : gmap string json :=
    {[ "paymentList" := JList (JDict <$> paymentList) ]} in
  result ← make_api_request "POST"
             ("/za/pb/v1/accounts/" +:+ accountId +:+ "/paymultiple")
             None (Some data);
  mret (json_dumps result).

(** Lines 321-325: both dates go into [params] whatever they are. *)
Definition get_documents (accountId fromDate toDate : string) : Py string :=
  let params : gmap string json :=
    {[ "fromDate" := of_str fromDate; "toDate" := of_str toDate ]} in
  result ← make_api_request "GET"
             ("/za/pb/v1/accounts/" +:+ accountId +:+ "/documents")
             (Some params) None;
  mret (json_dumps result).

Definition get_document (accountId documentType documentDate : string)
    : Py string :=
  result ← make_api_request "GET"
             ("/za/pb/v1/accounts/" +:+ accountId +:+ "/document/" +:+
              documentType +:+ "/" +:+ documentDate) None None;
  mret (json_dumps result).

(** *** The lines printed at import time (lines 25-33) *)

Definition startup_debug : list string :=
  [ "DEBUG - Loaded credentials:";
    "DEBUG - CLIENT_ID: " +:+ CLIENT_ID;
    "DEBUG - CLIENT_SECRET: " +:+ py_head 3 CLIENT_SECRET +:+ "..." +:+
      py_tail 3 CLIENT_SECRET;
    "DEBUG - API_KEY: " +:+ py_head 10 API_KEY +:+ "..." +:+
      py_tail 10 API_KEY;
    "DEBUG - BASE_URL: " +:+ BASE_URL ].

(** *** Concurrent calls of get_access_token *)

(** [get_access_token] from the call to its suspension at line 66: a token
    from the cache, or the number of the request now in flight. *)
Definition token_begin : Py (json + nat) :=
  current_time ← datetime_now;
  tok ← get_access_token_global;
  exp ← get_token_expiry_global;
  if cache_usable tok exp current_time then mret (inl tok)
  else n ← http_send token_request; mret (inr n).

(** [get_access_token] from the reply to request [n] to its end; leaving
    the [async with] block is taken not to suspend the coroutine. *)
Definition token_resume (n : nat) : Py json :=
  response ← http_recv n token_request;
  store_token response.

(** One turn of a task: it runs, alone, up to its next suspension. *)
Definition step_task (t : task) (s : State) : task * State :=
  match t with
  | Pending =>
      match token_begin s with
      | (Return (inl tok), s') => (Done (Return tok), s')
      | (Return (inr n), s') => (Awaiting n, s')
      | (Raise e, s') => (Done (Raise e), s')
      end
  | Awaiting n =>
      let (r, s') := token_resume n s in (Done r, s')
  | Done r => (Done r, s)
  end.

(** The loop gives task [i] a turn. *)
Definition step (c : Loop) (i : nat) : Loop :=
  match tasks c !! i with
  | Some t =>
      let (t', s') := step_task t (globals c) in
      mkLoop s' (<[ i := t' ]> (tasks c))
  | None => c
  end.

(** A schedule names the task that gets each turn. *)
Definition run (schedule : list nat) (c : Loop) : Loop :=
  foldl step c schedule.

(** [n] calls of [get_access_token] started together. *)
Definition gather (n : nat) (s : State) : Loop :=
  mkLoop s (replicate n Pending).

Definition in_flight (c : Loop) : nat :=
  length (filter (fun t => is_awaiting t = true) (tasks c)).

End Server.

(** ** Notions the statements use *)

(** The state after one more reading of the clock. *)
Definition ticked (s : State) : State :=
  mkState (access_token s) (token_expiry s) (S (ticks s)) (sent s).

(** The state after request [r] went out. *)
Definition requested (r : Request) (s : State) : State :=
  mkState (access_token s) (token_expiry s) (ticks s) (sent s ++ [r]).

(** Lines 99-110 read off for an upper-cased method: the headers and the
    request that [make_api_request] hands to the client. *)
Definition bearer_headers `{Env} (token : json) : gmap string string :=
  {[ "Authorization" := "Bearer " +:+ format_value token;
     "Accept" := "application/json" ]}.

Definition built_request `{Env} (verb : string) (token : json)
    (endpoint : string) (params json_data : option (gmap string json))
    : Request :=
  if String.eqb verb "POST" then
    mkRequest "POST" (BASE_URL +:+ endpoint) None
      (<[ "Content-Type" := "application/json" ]> (bearer_headers token))
      params None json_data
  else
    mkRequest "GET" (BASE_URL +:+ endpoint) None (bearer_headers token)
      params None None.

(** Lines 114-115 applied to what the transport gives back for [req]. *)
Definition outcome `{Env} (req : Request) (s : State) : result json * State :=
  match transport (length (sent s)) req with
  | Answers r =>
      (if is_success r then response_json r else Raise (HTTPStatusError r),
       requested req s)
  | Fails msg => (Raise (TransportError msg), requested req s)
  end.

(** The state once [k] calls have each read the clock, missed the cache
    and sent their request. *)
Definition begun `{Env} (s : State) (k : nat) : State :=
  mkState (access_token s) (token_expiry s) (ticks s + k)
    (sent s ++ replicate k token_request).

(** Every task has sent its request: each is done, or is waiting for its
    reply and is one of [waiting]. *)
Definition settled (waiting : list nat) (c : Loop) : Prop :=
  forall i t, tasks c !! i = Some t ->
    is_done t = true \/ (is_awaiting t = true /\ i ∈ waiting).

(** What may leave the process: a request goes to a URL under [BASE_URL],
    and it is the token request or carries neither the client credentials
    nor the subscription key. *)
Definition outbound_ok `{Env} (r : Request) : Prop :=
  (exists path, req_url r = BASE_URL +:+ path) /\
  (r = token_request \/
   (req_auth r = None /\ req_headers r !! "x-api-key" = None)).

(** ** Scenarios

    Concrete environments and states on which the statements below are
    run. *)

(** An instant in 2025, and a clock read once a second from then on. *)
Definition T0 : Z := 63871200000000000.

Definition steady_clock (n : nat) : Z := T0 + Z.of_nat n * 1000000.

Definition demo_env (c : nat -> Z) (t : nat -> Request -> reply) : Env :=
  {| CLIENT_ID := "client";
     CLIENT_SECRET := "secret";
     API_KEY := "key";
     USE_SANDBOX := Some "true";
     clock := c;
     transport := t;
     py_str := fun _ => "<value>";
     json_dumps := fun _ => "<json>" |}.

(** A reply of the token endpoint. *)
Definition token_reply (status : Z) (tok : string) (expires_in : Z) : reply :=
  Answers (mkResponse status
    (JsonBody (JDict {[ "access_token" := JStr tok;
                        "expires_in" := JInt expires_in ]}))).

(** A token reply whose body has no [expires_in]. *)
Definition token_only_reply (tok : string) : reply :=
  Answers (mkResponse 200 (JsonBody (JDict {[ "access_token" := JStr tok ]}))).

(** The token endpoint issues a fresh token, valid five minutes, to every
    request: request [n] gets the token ["token-n"] for n < 10. *)
Definition fresh_tokens (n : nat) (_ : Request) : reply :=
  token_reply 200 ("token-" +:+ String (ascii_of_nat (48 + n)) "") 300.

(** A token cached at [T0] that is good for five more minutes. *)
Definition warm_state : State :=
  mkState (JStr "cached") (Some (T0 + 300 * 1000000)) 0 [].

(** A token cached earlier whose expiry is exactly [T0]. *)
Definition stale_state : State :=
  mkState (JStr "old") (Some T0) 0 [].

(** The transport answers every request with the same response. *)
Definition always (r : Response) (_ : nat) (_ : Request) : reply := Answers r.

Definition not_found : Response :=
  mkResponse 404 (JsonBody (JDict {[ "message" := JStr "not found" ]})).

Definition balance_ok : Response :=
  mkResponse 200 (JsonBody (JDict {[ "data" := JDict {[ "currency" := JStr "ZAR" ]} ]})).

Definition one_transfer : gmap string string :=
  {[ "beneficiaryAccountId" := "b1"; "amount" := "100.00";
     "myReference" := "r1"; "theirReference" := "r2" ]}.

(** * Properties *)

(** ** Running the monad *)

Ltac py_unfold :=
  unfold get_access_token, token_resume, token_begin, store_token, http_call,
    http_send, http_recv, datetime_now, get_access_token_global,
    get_token_expiry_global, set_access_token, set_token_expiry, py_raise,
    lift, mbind, mret, Py_bind, Py_ret in *.

(** ** get_access_token, path by path *)

Lemma get_access_token_hit `{Env} (s : State) :
  cache_usable (access_token s) (token_expiry s) (clock (ticks s)) = true ->
  get_access_token s = (Return (access_token s), ticked s).
Proof. intros Hc. py_unfold. simpl. rewrite Hc. reflexivity. Qed.

Lemma get_access_token_miss `{Env} (s : State) :
  cache_usable (access_token s) (token_expiry s) (clock (ticks s)) = false ->
  get_access_token s
  = token_resume (length (sent s)) (requested token_request (ticked s)).
Proof. intros Hc. py_unfold. simpl. rewrite Hc. simpl. reflexivity. Qed.

Lemma token_resume_fails `{Env} (n : nat) (s : State) (msg : string) :
  transport n token_request = Fails msg ->
  token_resume n s = (Raise (TransportError msg), s).
Proof. intros Ht. py_unfold. rewrite Ht. reflexivity. Qed.

Lemma token_resume_answers `{Env} (n : nat) (s : State) (r : Response) :
  transport n token_request = Answers r ->
  token_resume n s = store_token r s.
Proof. intros Ht. unfold token_resume, http_recv. rewrite Ht. reflexivity. Qed.

Lemma store_token_refused `{Env} (r : Response) (s : State) :
  is_success r = false ->
  store_token r s = (Raise (HTTPStatusError r), s).
Proof. intros Hs. py_unfold. unfold raise_for_status. rewrite Hs. reflexivity. Qed.

(** Nothing after the reply sends a request. *)
Lemma store_token_sent `{Env} (r : Response) (s : State) :
  sent (store_token r s).2 = sent s.
Proof.
  py_unfold. unfold raise_for_status, response_json.
  destruct (is_success r); [|reflexivity].
  destruct (content r) as [j|]; [|reflexivity].
  destruct (py_getitem j "access_token"); [|reflexivity]. simpl.
  destruct (py_getitem j "expires_in") as [e|]; [|reflexivity].
  destruct (py_sub e 60) as [z|]; [|reflexivity].
  destruct (datetime_add_seconds _ z); reflexivity.
Qed.

Lemma token_resume_sent `{Env} (n : nat) (s : State) :
  sent (token_resume n s).2 = sent s.
Proof.
  destruct (transport n token_request) as [r|msg] eqn:Ht.
  - rewrite (token_resume_answers _ _ _ Ht). apply store_token_sent.
  - rewrite (token_resume_fails _ _ _ Ht). reflexivity.
Qed.

(** A reply is stored only as a whole: what a returning [store_token]
    leaves behind. *)
Lemma store_token_returns `{Env} (r : Response) (s s' : State) (tok : json) :
  store_token r s = (Return tok, s') ->
  exists d expires_in seconds,
    is_success r = true /\
    content r = JsonBody (JDict d) /\
    d !! "access_token" = Some tok /\
    d !! "expires_in" = Some expires_in /\
    py_sub expires_in 60 = Return seconds /\
    s' = mkState tok (Some (clock (ticks s) + seconds * 1000000))
           (S (ticks s)) (sent s).
Proof.
  py_unfold. unfold raise_for_status, response_json, py_getitem.
  destruct (is_success r); [|discriminate].
  destruct (content r) as [j|]; [|discriminate].
  destruct j as [| | | | |d]; try discriminate.
  destruct (d !! "access_token") as [t|] eqn:Ht; [|discriminate]. simpl.
  destruct (d !! "expires_in") as [e|] eqn:He; [|discriminate].
  destruct (py_sub e 60) as [z|] eqn:Hz; [|discriminate].
  unfold datetime_add_seconds.
  destruct (_ && _); [|discriminate]. simpl.
  intros [= <- <-]. exists d, e, z. repeat split; auto.
Qed.

(** ** make_api_request, path by path *)

Lemma make_api_request_token_error `{Env} (s s1 : State) (e : exn)
    (method endpoint : string) (params json_data : option (gmap string json)) :
  get_access_token s = (Raise e, s1) ->
  make_api_request method endpoint params json_data s = (Raise e, s1).
Proof.
  intros Ht. unfold make_api_request, mbind, Py_bind at 1. rewrite Ht.
  reflexivity.
Qed.

Lemma make_api_request_outcome `{Env} (s s1 : State) (tok : json)
    (method endpoint : string) (params json_data : option (gmap string json)) :
  get_access_token s = (Return tok, s1) ->
  upper method = "GET" \/ upper method = "POST" ->
  make_api_request method endpoint params json_data s
  = outcome (built_request (upper method) tok endpoint params json_data) s1.
Proof.
  intros Ht Hm. unfold make_api_request, mbind. unfold Py_bind at 1.
  rewrite Ht. unfold outcome, built_request, bearer_headers.
  destruct Hm as [-> | ->]; simpl;
    unfold Py_bind, http_call, http_send, http_recv, mbind, Py_bind, requested;
    simpl.
  all: match goal with |- context [transport ?n ?r] =>
         destruct (transport n r) as [r'|msg] end; simpl; try reflexivity.
  all: unfold lift, raise_for_status; destruct (is_success r'); reflexivity.
Qed.

Lemma make_api_request_unsupported `{Env} (s s1 : State) (tok : json)
    (method endpoint : string) (params json_data : option (gmap string json)) :
  get_access_token s = (Return tok, s1) ->
  upper method <> "GET" -> upper method <> "POST" ->
  make_api_request method endpoint params json_data s
  = (Raise (ValueError ("Unsupported method: " +:+ method)), s1).
Proof.
  intros Ht Hg Hp. unfold make_api_request, mbind. unfold Py_bind at 1.
  rewrite Ht.
  apply String.eqb_neq in Hg, Hp. rewrite Hg, Hp. reflexivity.
Qed.

Lemma outcome_sent `{Env} (req : Request) (s : State) :
  sent (outcome req s).2 = (sent s ++ [req])%list.
Proof. unfold outcome. destruct (transport _ _); reflexivity. Qed.

(** ** The token cache *)

(** C1 (amended): a call made while the cached token is truthy and the
    clock reads strictly less than [token_expiry] returns the cached token,
    leaves the globals alone and sends nothing; a call made once the clock
    has reached [token_expiry] does not answer from the cache: it sends the
    token request and its outcome is that of the refresh. *)
Theorem cached_token_reused_only_while_usable `{Env} (s : State) (e : Z) :
  token_expiry s = Some e ->
  (truthy (access_token s) = true -> clock (ticks s) < e ->
     get_access_token s = (Return (access_token s), ticked s) /\
     sent (get_access_token s).2 = sent s) /\
  (e <= clock (ticks s) ->
     get_access_token s
     = token_resume (length (sent s)) (requested token_request (ticked s)) /\
     sent (get_access_token s).2 = (sent s ++ [token_request])%list).
Proof.
  intros He. split.
  - intros Ht Hlt.
    assert (Hc : cache_usable (access_token s) (token_expiry s)
                   (clock (ticks s)) = true).
    { unfold cache_usable. rewrite Ht, He. simpl. apply Z.ltb_lt, Hlt. }
    rewrite (get_access_token_hit s Hc). split; reflexivity.
  - intros Hge.
    assert (Hc : cache_usable (access_token s) (token_expiry s)
                   (clock (ticks s)) = false).
    { unfold cache_usable. rewrite He. apply andb_false_iff. right.
      apply Z.ltb_ge, Hge. }
    rewrite (get_access_token_miss s Hc). split; [reflexivity|].
    rewrite token_resume_sent. reflexivity.
Qed.

Lemma cached_token_reused_only_while_usable_witness :
  let E := demo_env steady_clock fresh_tokens in
  (@get_access_token E warm_state = (Return (JStr "cached"), ticked warm_state)
   /\ sent (@get_access_token E warm_state).2 = []) /\
  sent (@get_access_token E stale_state).2 = [@token_request E].
Proof.
  intros E. split.
  - apply (@cached_token_reused_only_while_usable E warm_state
             (T0 + 300 * 1000000) eq_refl); [reflexivity | vm_compute; reflexivity].
  - apply (@cached_token_reused_only_while_usable E stale_state T0 eq_refl).
    vm_compute. discriminate.
Defined.

(** C1 as stated fails on a cached token that is the empty string: the
    provider hands out [""] with a lifetime of an hour, the call caches it,
    and the next call, made while the clock is before the cached expiry,
    sends a second token request. *)
Lemma empty_cached_token_is_fetched_again :
  let E := demo_env steady_clock (fun _ _ => token_reply 200 "" 3600) in
  let s1 := (@get_access_token E initial_state).2 in
  access_token s1 = JStr "" /\
  token_expiry s1 = Some (T0 + 3541 * 1000000) /\
  @clock E (ticks s1) < T0 + 3541 * 1000000 /\
  sent (@get_access_token E s1).2 = [@token_request E; @token_request E].
Proof. vm_compute. repeat split; reflexivity. Qed.

(** C3 (amended): when the cache cannot be used and the token endpoint
    answers with a status outside 2xx, the call raises [HTTPStatusError]
    carrying that response (its status and body); when the transport fails,
    the call raises the transport's error.  Either way [access_token] and
    [token_expiry] are what they were. *)
Theorem failed_refresh_keeps_cache `{Env} (s : State) :
  cache_usable (access_token s) (token_expiry s) (clock (ticks s)) = false ->
  (forall r, transport (length (sent s)) token_request = Answers r ->
     is_success r = false ->
     get_access_token s
     = (Raise (HTTPStatusError r),
        mkState (access_token s) (token_expiry s) (S (ticks s))
          (sent s ++ [token_request]))) /\
  (forall msg, transport (length (sent s)) token_request = Fails msg ->
     get_access_token s
     = (Raise (TransportError msg),
        mkState (access_token s) (token_expiry s) (S (ticks s))
          (sent s ++ [token_request]))).
Proof.
  intros Hc. rewrite (get_access_token_miss s Hc). split.
  - intros r Ht Hs. rewrite (token_resume_answers _ _ r Ht).
    apply store_token_refused, Hs.
  - intros msg Ht. apply token_resume_fails, Ht.
Qed.

Lemma failed_refresh_keeps_cache_witness :
  let unauthorized := mkResponse 401 (RawBody "unauthorized") in
  @get_access_token (demo_env steady_clock (always unauthorized)) stale_state
  = (Raise (HTTPStatusError unauthorized),
     mkState (JStr "old") (Some T0) 1
       [@token_request (demo_env steady_clock (always unauthorized))]) /\
  @get_access_token (demo_env steady_clock (fun _ _ => Fails "timeout"))
    stale_state
  = (Raise (TransportError "timeout"),
     mkState (JStr "old") (Some T0) 1
       [@token_request (demo_env steady_clock (fun _ _ => Fails "timeout"))]).
Proof.
  intros unauthorized. split.
  - apply (proj1 (@failed_refresh_keeps_cache
             (demo_env steady_clock (always unauthorized)) stale_state
             eq_refl) unauthorized eq_refl eq_refl).
  - apply (proj2 (@failed_refresh_keeps_cache
             (demo_env steady_clock (fun _ _ => Fails "timeout")) stale_state
             eq_refl) "timeout" eq_refl).
Defined.

(** C3 as stated fails on a status that is not 200 but is 2xx: on a 201
    the call returns the new token and replaces both globals. *)
Lemma created_status_is_accepted :
  let E := demo_env steady_clock (fun _ _ => token_reply 201 "new" 300) in
  @get_access_token E stale_state
  = (Return (JStr "new"),
     mkState (JStr "new") (Some (T0 + 241 * 1000000)) 2 [@token_request E]).
Proof. vm_compute. reflexivity. Qed.

(** C4 (the code at the failing input): a 200 reply that has an
    [access_token] and no [expires_in] makes the call raise [KeyError], but
    line 78 has already replaced [access_token]: from the initial globals
    the token is left set with no expiry, and from a stale pair the new
    token is left paired with the expiry of the old one. *)
Theorem missing_expires_in_splits_the_pair :
  let E := demo_env steady_clock (fun _ _ => token_only_reply "fresh") in
  @get_access_token E initial_state
  = (Raise (KeyError "expires_in"),
     mkState (JStr "fresh") None 2 [@token_request E]) /\
  @get_access_token E stale_state
  = (Raise (KeyError "expires_in"),
     mkState (JStr "fresh") (Some T0) 2 [@token_request E]).
Proof. vm_compute. split; reflexivity. Qed.

(** C5: on a refresh that returns, with [expires_in] the integer [n] in
    the reply, the token cached is the one of the reply and the expiry
    cached is the clock as read at line 80 plus [n - 60] seconds. *)
Theorem expiry_is_now_plus_lifetime_less_60s `{Env}
    (s s' : State) (r : Response) (d : gmap string json) (n : Z) (tok : json) :
  cache_usable (access_token s) (token_expiry s) (clock (ticks s)) = false ->
  transport (length (sent s)) token_request = Answers r ->
  content r = JsonBody (JDict d) ->
  d !! "expires_in" = Some (JInt n) ->
  get_access_token s = (Return tok, s') ->
  d !! "access_token" = Some tok /\
  access_token s' = tok /\
  token_expiry s' = Some (clock (S (ticks s)) + (n - 60) * 1000000).
Proof.
  intros Hmiss Ht Hc He Hret.
  rewrite (get_access_token_miss s Hmiss) in Hret.
  rewrite (token_resume_answers _ _ r Ht) in Hret.
  apply store_token_returns in Hret
    as (d' & e & z & _ & Hc' & Htok & He' & Hz & ->).
  rewrite Hc in Hc'. injection Hc' as <-.
  rewrite He in He'. injection He' as <-.
  simpl in Hz. injection Hz as <-. simpl. auto.
Qed.

Lemma expiry_is_now_plus_lifetime_less_60s_witness :
  let E := demo_env steady_clock (fun _ _ => token_reply 200 "abc" 300) in
  let s' := (@get_access_token E initial_state).2 in
  access_token s' = JStr "abc" /\
  token_expiry s' = Some (steady_clock 1 + 240 * 1000000).
Proof.
  intros E s'.
  refine (proj2 (@expiry_is_now_plus_lifetime_less_60s E initial_state s'
            (mkResponse 200 (JsonBody (JDict {[ "access_token" := JStr "abc";
                                                "expires_in" := JInt 300 ]})))
            _ 300 (JStr "abc") eq_refl eq_refl eq_refl _ _)).
  - vm_compute. reflexivity.
  - vm_compute. reflexivity.
Defined.

(** ** The request helper and the tools *)

(** A tool hands back the state [make_api_request] leaves. *)
Lemma dumps_state `{Env} (m : Py json) (s : State) :
  ((result ← m; mret (json_dumps result)) s).2 = (m s).2.
Proof.
  unfold mbind, Py_bind, mret, Py_ret. destruct (m s) as [[j|e] s']; reflexivity.
Qed.

Lemma dumps_raises `{Env} (m : Py json) (s : State) (e : exn) :
  (m s).1 = Raise e ->
  ((result ← m; mret (json_dumps result)) s).1 = Raise e.
Proof.
  unfold mbind, Py_bind, mret, Py_ret.
  destruct (m s) as [[j|e'] s']; simpl; congruence.
Qed.

Lemma transactions_params_lookup (fromDate toDate : string)
    (transactionType : option string) (includePending : option bool) :
  let params :=
    transactions_params fromDate toDate transactionType includePending in
  params !! "fromDate"
    = (if truthy (JStr fromDate) then Some (JStr fromDate) else None) /\
  params !! "toDate"
    = (if truthy (JStr toDate) then Some (JStr toDate) else None) /\
  params !! "transactionType"
    = match transactionType with
      | Some t => if truthy (JStr t) then Some (JStr t) else None
      | None => None
      end /\
  params !! "includePending"
    = match includePending with
      | Some true => Some (JStr "true")
      | _ => None
      end /\
  (forall k : string,
     k <> "fromDate" -> k <> "toDate" -> k <> "transactionType" ->
     k <> "includePending" -> params !! k = None).
Proof.
  unfold transactions_params, of_str, of_opt_str, of_opt_bool.
  destruct transactionType as [t|], includePending as [[|]|]; simpl;
    destruct (negb (String.eqb fromDate "")), (negb (String.eqb toDate ""));
    try destruct (negb (String.eqb t ""));
    repeat split; intros; simplify_map_eq; reflexivity.
Qed.



(** The tool of the example: a 404 on the balance endpoint reaches the
    caller of [get_account_balance] as that [HTTPStatusError]. *)
Example balance_not_found :
  (@get_account_balance (demo_env steady_clock (always not_found))
     "acc1" warm_state).1
  = Raise (HTTPStatusError
      (mkResponse 404 (JsonBody (JDict {[ "message" := JStr "not found" ]})))).
Proof. vm_compute. reflexivity. Qed.

(** C7: when the token is there, [transfer_multiple] sends one request, a
    POST to [BASE_URL] + /za/pb/v1/accounts/{accountId}/transfermultiple
    whose JSON body maps "transferList" to the list given, maps "profileId"
    to the profile given when there is one, has no "profileId" when there
    is none, and has no other key. *)
Theorem transfer_multiple_request `{Env} (s s1 : State) (tok : json)
    (accountId : string) (transferList : list (gmap string string))
    (profileId : option string) :
  get_access_token s = (Return tok, s1) ->
  exists (req : Request) (data : gmap string json),
    sent (transfer_multiple accountId transferList profileId s).2
    = (sent s1 ++ [req])%list /\
    req_method req = "POST" /\
    req_url req
    = BASE_URL +:+ "/za/pb/v1/accounts/" +:+ accountId +:+ "/transfermultiple" /\
    req_json req = Some data /\
    data !! "transferList" = Some (JList (of_str_dict <$> transferList)) /\
    data !! "profileId" = JStr <$> profileId /\
    (forall k : string,
       k <> "transferList" -> k <> "profileId" -> data !! k = None).
Proof.
  intros Ht. unfold transfer_multiple. rewrite dumps_state.
  rewrite (make_api_request_outcome s s1 tok "POST" _ _ _ Ht (or_intror eq_refl)).
  rewrite outcome_sent. simpl.
  eexists _, (transfer_data transferList profileId).
  repeat split; unfold transfer_data;
    destruct profileId; intros; simplify_map_eq; reflexivity.
Qed.

Lemma transfer_multiple_request_witness :
  let E := demo_env steady_clock (always balance_ok) in
  exists (req : Request) (data : gmap string json),
    sent (@transfer_multiple E "acc1" [one_transfer] (Some "p1") warm_state).2
    = [req] /\
    req_method req = "POST" /\
    req_url req
    = "https://openapisandbox.investec.com/za/pb/v1/accounts/acc1/transfermultiple" /\
    req_json req = Some data /\
    data !! "transferList" = Some (JList [of_str_dict one_transfer]) /\
    data !! "profileId" = Some (JStr "p1") /\
    (forall k : string,
       k <> "transferList" -> k <> "profileId" -> data !! k = None).
Proof.
  intros E.
  exact (@transfer_multiple_request E warm_state (ticked warm_state)
           (JStr "cached") "acc1" [one_transfer] (Some "p1") eq_refl).
Defined.

(** The example of the spec with [profileId] left out: the body is just
    the transfer list. *)
Example transfer_without_profile :
  let E := demo_env steady_clock (always balance_ok) in
  req_json <$> sent (@transfer_multiple E "acc1" [one_transfer] None warm_state).2
  = [Some {[ "transferList" := JList [of_str_dict one_transfer] ]}].
Proof. vm_compute. reflexivity. Qed.




(** C9 (amended): a call whose method, upper-cased, is GET or POST runs
    [get_access_token] first; if that raises, so does the call, and nothing
    more is sent.  Otherwise the call sends, after whatever
    [get_access_token] sent, one request: to [BASE_URL] + endpoint, with
    the headers Authorization: Bearer <token> and Accept: application/json,
    and with Content-Type: application/json exactly when the method is
    POST, whether or not a body is given. *)
Theorem request_carries_bearer_token `{Env} (s : State)
    (method endpoint : string) (params json_data : option (gmap string json)) :
  upper method = "GET" \/ upper method = "POST" ->
  match get_access_token s with
  | (Raise e, s1) =>
      make_api_request method endpoint params json_data s = (Raise e, s1)
  | (Return tok, s1) =>
      exists req : Request,
        sent (make_api_request method endpoint params json_data s).2
        = (sent s1 ++ [req])%list /\
        req_method req = upper method /\
        req_url req = BASE_URL +:+ endpoint /\
        req_headers req !! "Authorization"
        = Some ("Bearer " +:+ format_value tok) /\
        req_headers req !! "Accept" = Some "application/json" /\
        req_headers req !! "Content-Type"
        = (if String.eqb (upper method) "POST"
           then Some "application/json" else None) /\
        req_params req = params /\
        req_json req
        = (if String.eqb (upper method) "POST" then json_data else None)
  end.
Proof.
  intros Hm. destruct (get_access_token s) as [[tok|e] s1] eqn:Ht.
  - rewrite (make_api_request_outcome s s1 tok _ _ _ _ Ht Hm).
    rewrite outcome_sent. eexists. split; [reflexivity|].
    unfold built_request, bearer_headers.
    destruct Hm as [-> | ->]; simpl; repeat split; simplify_map_eq;
      reflexivity.
  - apply (make_api_request_token_error s s1 e); assumption.
Qed.

Lemma request_carries_bearer_token_witness :
  let E := demo_env steady_clock (always balance_ok) in
  exists req : Request,
    sent (@make_api_request E "post" "/za/pb/v1/accounts/acc1/paymultiple"
            None (Some ∅) warm_state).2 = [req] /\
    req_method req = "POST" /\
    req_url req
    = "https://openapisandbox.investec.com/za/pb/v1/accounts/acc1/paymultiple" /\
    req_headers req !! "Authorization" = Some "Bearer cached" /\
    req_headers req !! "Accept" = Some "application/json" /\
    req_headers req !! "Content-Type" = Some "application/json" /\
    req_params req = None /\
    req_json req = Some ∅.
Proof.
  intros E.
  exact (@request_carries_bearer_token E warm_state
           "post" "/za/pb/v1/accounts/acc1/paymultiple" None (Some ∅)
           (or_intror eq_refl)).
Defined.

(** C9 as stated fails on a POST without a body: the request goes out with
    no JSON body and with the Content-Type header. *)
Lemma post_without_body_has_content_type :
  let E := demo_env steady_clock (always balance_ok) in
  (fun req => (req_method req, req_json req, req_headers req !! "Content-Type"))
    <$> sent (@make_api_request E "POST" "/za/pb/v1/accounts/acc1/paymultiple"
                None None warm_state).2
  = [("POST", None, Some "application/json")].
Proof. vm_compute. reflexivity. Qed.

(** C10: when the token is there, [get_account_transactions] sends one GET
    whose query parameters hold "fromDate" and "toDate" exactly when the
    argument is a non-empty string, "transactionType" exactly when the
    argument is a non-empty string and not None, "includePending" exactly
    when the argument is True, then as the string "true", and nothing
    else. *)
Theorem optional_arguments_sent_when_truthy `{Env} (s s1 : State) (tok : json)
    (accountId fromDate toDate : string) (transactionType : option string)
    (includePending : option bool) :
  get_access_token s = (Return tok, s1) ->
  exists (req : Request) (params : gmap string json),
    sent (get_account_transactions accountId fromDate toDate transactionType
            includePending s).2 = (sent s1 ++ [req])%list /\
    req_method req = "GET" /\
    req_url req
    = BASE_URL +:+ "/za/pb/v1/accounts/" +:+ accountId +:+ "/transactions" /\
    req_params req = Some params /\
    params !! "fromDate"
    = (if String.eqb fromDate "" then None else Some (JStr fromDate)) /\
    params !! "toDate"
    = (if String.eqb toDate "" then None else Some (JStr toDate)) /\
    params !! "transactionType"
    = match transactionType with
      | Some t => if String.eqb t "" then None else Some (JStr t)
      | None => None
      end /\
    params !! "includePending"
    = match includePending with
      | Some true => Some (JStr "true")
      | Some false | None => None
      end /\
    (forall k : string,
       k <> "fromDate" -> k <> "toDate" -> k <> "transactionType" ->
       k <> "includePending" -> params !! k = None).
Proof.
  intros Ht. unfold get_account_transactions. rewrite dumps_state.
  rewrite (make_api_request_outcome s s1 tok "GET" _ _ _ Ht (or_introl eq_refl)).
  rewrite outcome_sent. simpl.
  eexists _, (transactions_params fromDate toDate transactionType
                includePending).
  do 4 (split; [reflexivity|]).
  pose proof (transactions_params_lookup fromDate toDate transactionType
                includePending) as (Hf & Hd & Hy & Hp & Hk).
  simpl in Hf, Hd, Hy.
  rewrite Hf, Hd, Hy, Hp.
  repeat split; try assumption.
  - destruct (String.eqb fromDate ""); reflexivity.
  - destruct (String.eqb toDate ""); reflexivity.
  - destruct transactionType as [t|]; [|reflexivity].
    destruct (String.eqb t ""); reflexivity.
Qed.

Lemma optional_arguments_sent_when_truthy_witness :
  let E := demo_env steady_clock (always balance_ok) in
  exists (req : Request) (params : gmap string json),
    sent (@get_account_transactions E "acc1" "2025-01-01" "" (Some "")
            (Some false) warm_state).2 = [req] /\
    req_method req = "GET" /\
    req_url req
    = "https://openapisandbox.investec.com/za/pb/v1/accounts/acc1/transactions" /\
    req_params req = Some params /\
    params !! "fromDate" = Some (JStr "2025-01-01") /\
    params !! "toDate" = None /\
    params !! "transactionType" = None /\
    params !! "includePending" = None /\
    (forall k : string,
       k <> "fromDate" -> k <> "toDate" -> k <> "transactionType" ->
       k <> "includePending" -> params !! k = None).
Proof.
  intros E.
  exact (@optional_arguments_sent_when_truthy E warm_state (ticked warm_state)
           (JStr "cached") "acc1" "2025-01-01" "" (Some "") (Some false)
           eq_refl).
Defined.

(** All four optional arguments given and truthy. *)
Example transactions_all_parameters :
  let E := demo_env steady_clock (always balance_ok) in
  req_params <$> sent (@get_account_transactions E "acc1" "2025-01-01"
                         "2025-01-31" (Some "CardPurchases") (Some true)
                         warm_state).2
  = [Some {[ "fromDate" := JStr "2025-01-01"; "toDate" := JStr "2025-01-31";
             "transactionType" := JStr "CardPurchases";
             "includePending" := JStr "true" ]}].
Proof. vm_compute. reflexivity. Qed.

(** ** Concurrent calls *)

(** The two halves of the coroutine make up the function. *)
Lemma get_access_token_as_task `{Env} (s : State) :
  get_access_token s
  = match token_begin s with
    | (Return (inl tok), s') => (Return tok, s')
    | (Return (inr n), s') => token_resume n s'
    | (Raise e, s') => (Raise e, s')
    end.
Proof.
  py_unfold. simpl.
  destruct (cache_usable _ _ _); reflexivity.
Qed.

Lemma run_snoc `{Env} (schedule : list nat) (i : nat) (c : Loop) :
  run (schedule ++ [i]) c = step (run schedule c) i.
Proof. unfold run. rewrite foldl_app. reflexivity. Qed.

Lemma step_pending `{Env} (c : Loop) (i : nat) :
  tasks c !! i = Some Pending ->
  cache_usable (access_token (globals c)) (token_expiry (globals c))
    (clock (ticks (globals c))) = false ->
  step c i
  = mkLoop (requested token_request (ticked (globals c)))
      (<[ i := Awaiting (length (sent (globals c))) ]> (tasks c)).
Proof.
  intros Hi Hc. unfold step. rewrite Hi. unfold step_task.
  py_unfold. simpl. rewrite Hc. reflexivity.
Qed.

Lemma run_begin `{Env} (n : nat) (s : State) (k : nat) :
  (k <= n)%nat ->
  (forall i, (i < n)%nat ->
     cache_usable (access_token s) (token_expiry s) (clock (ticks s + i))
     = false) ->
  run (seq 0 k) (gather n s)
  = mkLoop (begun s k)
      ((Awaiting <$> seq (length (sent s)) k) ++ replicate (n - k) Pending).
Proof.
  intros Hk Hmiss. induction k as [|k IH].
  - simpl. unfold gather, begun. simpl.
    rewrite Nat.add_0_r, app_nil_r, Nat.sub_0_r. destruct s; reflexivity.
  - rewrite !seq_S, run_snoc, IH by lia.
    assert (Hlen : length (Awaiting <$> seq (length (sent s)) k) = k)
      by (rewrite length_fmap, length_seq; reflexivity).
    rewrite step_pending; cbn [globals tasks].
    + f_equal.
      * unfold requested, ticked, begun. cbn [access_token token_expiry ticks sent].
        f_equal; [lia|].
        rewrite <- app_assoc. f_equal.
        change [token_request] with (replicate 1 token_request).
        rewrite <- replicate_add.
        replace (k + 1)%nat with (S k) by lia. reflexivity.
      * rewrite insert_app_r_alt by lia. rewrite Hlen, Nat.sub_diag.
        replace (n - k)%nat with (S (n - S k)) by lia.
        rewrite fmap_app, <- app_assoc. unfold begun. simpl.
        rewrite length_app, length_replicate. reflexivity.
    + rewrite lookup_app_r by lia. rewrite Hlen, Nat.sub_diag.
      replace (n - k)%nat with (S (n - S k)) by lia. reflexivity.
    + unfold begun. simpl. apply Hmiss. lia.
Qed.

Lemma step_settled `{Env} (i : nat) (waiting : list nat) (c : Loop) :
  settled (i :: waiting) c ->
  settled waiting (step c i) /\
  sent (globals (step c i)) = sent (globals c).
Proof.
  intros Hc. unfold step.
  destruct (tasks c !! i) as [t|] eqn:Hi.
  - destruct (step_task t (globals c)) as [t' s'] eqn:Hstep.
    assert (Ht' : is_done t' = true /\ sent s' = sent (globals c)).
    { destruct (Hc i t Hi) as [Hd | [Ha _]].
      - destruct t; try discriminate. simpl in Hstep.
        injection Hstep as <- <-. split; reflexivity.
      - destruct t as [|m|]; try discriminate. simpl in Hstep.
        pose proof (token_resume_sent m (globals c)) as Hs.
        destruct (token_resume m (globals c)) as [r s'']. simpl in Hs.
        injection Hstep as <- <-. split; [reflexivity | exact Hs]. }
    destruct Ht' as [Hd Hs]. simpl. split; [|exact Hs].
    intros j u Hj. cbn [tasks] in Hj.
    destruct (decide (i = j)) as [<- | Hne].
    + rewrite list_lookup_insert_eq in Hj by (eapply lookup_lt_Some; eauto).
      injection Hj as <-. left. exact Hd.
    + rewrite list_lookup_insert_ne in Hj by assumption.
      destruct (Hc j u Hj) as [? | [Ha Hin]]; [left; assumption|].
      right. split; [assumption|].
      apply elem_of_cons in Hin as [-> | Hin]; [congruence | assumption].
  - split; [|reflexivity].
    intros j u Hj. destruct (Hc j u Hj) as [? | [Ha Hin]]; [left; assumption|].
    right. split; [assumption|].
    apply elem_of_cons in Hin as [-> | Hin]; [congruence | assumption].
Qed.

Lemma run_settled `{Env} (order waiting : list nat) (c : Loop) :
  settled (order ++ waiting) c ->
  settled waiting (run order c) /\
  sent (globals (run order c)) = sent (globals c).
Proof.
  revert c. induction order as [|i order IH]; intros c Hc.
  - split; [exact Hc | reflexivity].
  - simpl in Hc. apply step_settled in Hc as [Hc Hs].
    simpl. destruct (IH _ Hc) as [Hc' Hs']. split; [exact Hc'|].
    rewrite Hs'. exact Hs.
Qed.

Lemma in_flight_all (l : list nat) :
  length (filter (fun t => is_awaiting t = true) (Awaiting <$> l)) = length l.
Proof.
  induction l as [|m l IH]; [reflexivity|].
  rewrite fmap_cons, filter_cons_True by reflexivity.
  cbn [length]. rewrite IH. reflexivity.
Qed.

(** C2 (amended): when [n] calls started together all miss the cache, each
    sends a token request of its own: once all have had their first turn,
    [n] requests have gone out and all [n] are in flight at once.  From
    then on, in whatever order the replies resume the calls, nothing more
    is sent, and when every call has been resumed every call is done. *)
Theorem concurrent_calls_each_refresh `{Env} (n : nat) (s : State)
    (order : list nat) :
  (forall i, (i < n)%nat ->
     cache_usable (access_token s) (token_expiry s) (clock (ticks s + i))
     = false) ->
  (forall i, (i < n)%nat -> i ∈ order) ->
  let started := run (seq 0 n) (gather n s) in
  let finished := run order started in
  tasks started = Awaiting <$> seq (length (sent s)) n /\
  in_flight started = n /\
  sent (globals started) = (sent s ++ replicate n token_request)%list /\
  sent (globals finished) = (sent s ++ replicate n token_request)%list /\
  Forall (fun t => is_done t = true) (tasks finished).
Proof.
  intros Hmiss Hall started finished.
  assert (Hst : started
    = mkLoop (begun s n) (Awaiting <$> seq (length (sent s)) n)).
  { unfold started. rewrite (run_begin n s n (le_n n) Hmiss).
    rewrite Nat.sub_diag, app_nil_r. reflexivity. }
  assert (Hset : settled (order ++ []) started).
  { rewrite Hst. intros i t Hi. simpl in Hi.
    apply list_lookup_fmap_Some in Hi as (m & -> & Hm).
    right. split; [reflexivity|].
    apply elem_of_app. left. apply Hall.
    apply lookup_lt_Some in Hm. rewrite length_seq in Hm. exact Hm. }
  apply run_settled in Hset as [Hfin Hsent]. fold finished in Hfin, Hsent.
  repeat split.
  - rewrite Hst. reflexivity.
  - unfold in_flight. rewrite Hst. simpl.
    rewrite in_flight_all, length_seq. reflexivity.
  - rewrite Hst. reflexivity.
  - rewrite Hsent, Hst. reflexivity.
  - apply Forall_lookup. intros i t Hi.
    destruct (Hfin i t Hi) as [Hd | [_ Hin]]; [exact Hd|].
    apply elem_of_nil in Hin. contradiction.
Qed.

Lemma concurrent_calls_each_refresh_witness :
  let E := demo_env steady_clock fresh_tokens in
  let started := @run E [0; 1; 2]%nat (gather 3 initial_state) in
  let finished := @run E [2; 0; 1]%nat started in
  tasks started = [Awaiting 0; Awaiting 1; Awaiting 2] /\
  in_flight started = 3%nat /\
  sent (globals started) = replicate 3 (@token_request E) /\
  sent (globals finished) = replicate 3 (@token_request E) /\
  Forall (fun t => is_done t = true) (tasks finished).
Proof.
  intros E.
  apply (@concurrent_calls_each_refresh E 3 initial_state [2; 0; 1]%nat).
  - intros i _. reflexivity.
  - intros i Hi.
    destruct i as [|[|[|i]]]; [set_solver | set_solver | set_solver | lia].
Defined.

(** C2 as stated fails already for two calls: both find nothing cached and
    send a request each, two refreshes are in flight together, and each
    call returns the token of its own reply. *)
Lemma two_calls_two_token_requests :
  let E := demo_env steady_clock fresh_tokens in
  let started := @run E [0; 1]%nat (gather 2 initial_state) in
  let finished := @run E [0; 1]%nat started in
  in_flight started = 2%nat /\
  sent (globals finished) = [@token_request E; @token_request E] /\
  tasks finished
  = [Done (Return (JStr "token-0")); Done (Return (JStr "token-1"))].
Proof. vm_compute. repeat split; reflexivity. Qed.

(** * Further properties of the token cache *)

(** What a well-formed reply makes [store_token] do. *)
Lemma store_token_stores `{Env} (r : Response) (s : State)
    (d : gmap string json) (tok : json) (n : Z) :
  is_success r = true ->
  content r = JsonBody (JDict d) ->
  d !! "access_token" = Some tok ->
  d !! "expires_in" = Some (JInt n) ->
  0 <= clock (ticks s) + (n - 60) * 1000000 <= DATETIME_MAX ->
  store_token r s
  = (Return tok,
     mkState tok (Some (clock (ticks s) + (n - 60) * 1000000))
       (S (ticks s)) (sent s)).
Proof.
  intros Hs Hc Ht He Hr.
  py_unfold. unfold raise_for_status, response_json, py_getitem.
  rewrite Hs, Hc, Ht. simpl. rewrite He. simpl.
  unfold datetime_add_seconds.
  destruct (_ && _) eqn:Hb; [reflexivity|].
  apply andb_false_iff in Hb as [Hb|Hb]; lia.
Qed.

Lemma returning_call_leaves_token `{Env} (s s' : State) (tok : json) :
  get_access_token s = (Return tok, s') -> access_token s' = tok.
Proof.
  intros Hret.
  destruct (cache_usable (access_token s) (token_expiry s) (clock (ticks s)))
    eqn:Hc.
  - rewrite (get_access_token_hit s Hc) in Hret. injection Hret as <- <-.
    reflexivity.
  - rewrite (get_access_token_miss s Hc) in Hret.
    destruct (transport (length (sent s)) token_request) as [r|msg] eqn:Ht.
    + rewrite (token_resume_answers _ _ r Ht) in Hret.
      apply store_token_returns in Hret as (d & e & z & _ & _ & _ & _ & _ & ->).
      reflexivity.
    + rewrite (token_resume_fails _ _ msg Ht) in Hret. discriminate.
Qed.

(** A call that returns leaves in the cache the token it returns, with an
    expiry set. *)
Theorem returned_token_is_the_cached_one `{Env} (s s' : State) (tok : json) :
  get_access_token s = (Return tok, s') ->
  access_token s' = tok /\ is_Some (token_expiry s').
Proof.
  intros Hret. split; [exact (returning_call_leaves_token s s' tok Hret)|].
  destruct (cache_usable (access_token s) (token_expiry s) (clock (ticks s)))
    eqn:Hc.
  - rewrite (get_access_token_hit s Hc) in Hret. injection Hret as <- <-.
    simpl. unfold cache_usable in Hc.
    destruct (token_expiry s); [eexists; reflexivity|].
    rewrite andb_false_r in Hc. discriminate.
  - rewrite (get_access_token_miss s Hc) in Hret.
    destruct (transport (length (sent s)) token_request) as [r|msg] eqn:Ht.
    + rewrite (token_resume_answers _ _ r Ht) in Hret.
      apply store_token_returns in Hret as (d & e & z & _ & _ & _ & _ & _ & ->).
      eexists; reflexivity.
    + rewrite (token_resume_fails _ _ msg Ht) in Hret. discriminate.
Qed.

Lemma returned_token_is_the_cached_one_witness :
  let E := demo_env steady_clock fresh_tokens in
  access_token (@get_access_token E initial_state).2 = JStr "token-0" /\
  is_Some (token_expiry (@get_access_token E initial_state).2).
Proof.
  intros E.
  apply (@returned_token_is_the_cached_one E initial_state).
  vm_compute. reflexivity.
Defined.

(** Two calls in a row: when a call returns a truthy token and the next
    call reads the clock before the expiry the first one left, the next
    call returns the same token and sends nothing. *)
Theorem next_call_reuses_the_token `{Env} (s s1 : State) (tok : json) (e : Z) :
  get_access_token s = (Return tok, s1) ->
  truthy tok = true ->
  token_expiry s1 = Some e ->
  clock (ticks s1) < e ->
  get_access_token s1 = (Return tok, ticked s1) /\
  sent (get_access_token s1).2 = sent s1.
Proof.
  intros Hret Ht He Hlt.
  apply returning_call_leaves_token in Hret as Htok.
  assert (Hc : cache_usable (access_token s1) (token_expiry s1)
                 (clock (ticks s1)) = true).
  { unfold cache_usable. rewrite Htok, Ht, He. simpl. apply Z.ltb_lt, Hlt. }
  rewrite (get_access_token_hit s1 Hc), Htok. split; reflexivity.
Qed.

Lemma next_call_reuses_the_token_witness :
  let E := demo_env steady_clock fresh_tokens in
  let s1 := (@get_access_token E initial_state).2 in
  @get_access_token E s1 = (Return (JStr "token-0"), ticked s1) /\
  sent (@get_access_token E s1).2 = [@token_request E].
Proof.
  intros E s1.
  apply (@next_call_reuses_the_token E initial_state s1 (JStr "token-0")
           (T0 + 241 * 1000000)).
  - vm_compute. reflexivity.
  - reflexivity.
  - vm_compute. reflexivity.
  - vm_compute. reflexivity.
Defined.

(** A call sends the token request exactly when it cannot use the cache,
    and never sends anything else. *)
Theorem one_token_request_per_miss `{Env} (s : State) :
  sent (get_access_token s).2
  = if cache_usable (access_token s) (token_expiry s) (clock (ticks s))
    then sent s
    else (sent s ++ [token_request])%list.
Proof.
  destruct (cache_usable _ _ _) eqn:Hc.
  - rewrite (get_access_token_hit s Hc). reflexivity.
  - rewrite (get_access_token_miss s Hc), token_resume_sent. reflexivity.
Qed.




(** A 2xx reply that cannot give a token (a body that is not JSON, JSON
    that is not an object, an object without "access_token") makes the call
    raise, and both globals stay as they were. *)
Theorem malformed_reply_keeps_cache `{Env} (s : State) (r : Response) :
  cache_usable (access_token s) (token_expiry s) (clock (ticks s)) = false ->
  transport (length (sent s)) token_request = Answers r ->
  is_success r = true ->
  match content r with
  | RawBody _ =>
      get_access_token s
      = (Raise JSONDecodeError, requested token_request (ticked s))
  | JsonBody (JDict d) =>
      d !! "access_token" = None ->
      get_access_token s
      = (Raise (KeyError "access_token"), requested token_request (ticked s))
  | JsonBody _ =>
      get_access_token s
      = (Raise TypeError, requested token_request (ticked s))
  end.
Proof.
  intros Hc Ht Hs.
  rewrite (get_access_token_miss s Hc), (token_resume_answers _ _ r Ht).
  py_unfold. unfold raise_for_status, response_json, py_getitem. rewrite Hs.
  destruct (content r) as [[| | | | |d]|]; try reflexivity.
  intros ->. reflexivity.
Qed.

Lemma malformed_reply_keeps_cache_witness :
  let E := demo_env steady_clock
             (always (mkResponse 200 (RawBody "<html>maintenance</html>"))) in
  @get_access_token E stale_state
  = (Raise JSONDecodeError,
     mkState (JStr "old") (Some T0) 1 [@token_request E]).
Proof.
  intros E.
  exact (@malformed_reply_keeps_cache E stale_state
           (mkResponse 200 (RawBody "<html>maintenance</html>"))
           eq_refl eq_refl eq_refl).
Defined.





(** A lifetime of 60 seconds or less is used up by the margin: the token
    of such a reply is stored already expired, so no later call reuses it
    while the clock does not run backwards. *)
Theorem short_lifetime_is_never_reused `{Env} (s s' : State) (r : Response)
    (d : gmap string json) (n : Z) (tok : json) (t : Z) :
  cache_usable (access_token s) (token_expiry s) (clock (ticks s)) = false ->
  transport (length (sent s)) token_request = Answers r ->
  content r = JsonBody (JDict d) ->
  d !! "expires_in" = Some (JInt n) ->
  n <= 60 ->
  get_access_token s = (Return tok, s') ->
  clock (S (ticks s)) <= t ->
  cache_usable (access_token s') (token_expiry s') t = false.
Proof.
  intros Hmiss Ht Hc He Hn Hret Hlater.
  rewrite (get_access_token_miss s Hmiss) in Hret.
  rewrite (token_resume_answers _ _ r Ht) in Hret.
  apply store_token_returns in Hret
    as (d' & e & z & _ & Hc' & _ & He' & Hz & ->).
  rewrite Hc in Hc'. injection Hc' as <-.
  rewrite He in He'. injection He' as <-.
  simpl in Hz. injection Hz as <-.
  unfold cache_usable. simpl. apply andb_false_iff. right.
  apply Z.ltb_ge. lia.
Qed.

Lemma short_lifetime_is_never_reused_witness :
  let E := demo_env steady_clock (fun _ _ => token_reply 200 "brief" 60) in
  let s' := (@get_access_token E initial_state).2 in
  access_token s' = JStr "brief" /\
  cache_usable (access_token s') (token_expiry s') (@clock E (ticks s')) = false.
Proof.
  intros E s'. split; [reflexivity|].
  apply (@short_lifetime_is_never_reused E initial_state s'
           (mkResponse 200 (JsonBody (JDict {[ "access_token" := JStr "brief";
                                               "expires_in" := JInt 60 ]})))
           _ 60 (JStr "brief") (@clock E (ticks s'))
           eq_refl eq_refl eq_refl eq_refl).
  - lia.
  - vm_compute. reflexivity.
  - vm_compute. discriminate.
Defined.

(** * Further properties of the request helper *)



(** What [make_api_request] does once the token is there, for any method. *)
Lemma make_api_request_cases `{Env} (s s1 : State) (tok : json)
    (method endpoint : string) (params json_data : option (gmap string json)) :
  get_access_token s = (Return tok, s1) ->
  make_api_request method endpoint params json_data s
  = if bool_decide (upper method = "GET" \/ upper method = "POST")
    then outcome (built_request (upper method) tok endpoint params json_data) s1
    else (Raise (ValueError ("Unsupported method: " +:+ method)), s1).
Proof.
  intros Ht. destruct (bool_decide _) eqn:Hm.
  - apply bool_decide_eq_true in Hm.
    apply (make_api_request_outcome s s1 tok); assumption.
  - apply bool_decide_eq_false in Hm.
    apply (make_api_request_unsupported s s1 tok); [assumption | |];
      intros Heq; apply Hm; [left | right]; exact Heq.
Qed.

(** The two ways a call can fail after a request that went out and was not
    refused by its status: the transport fails, and the call raises its
    error; the reply is 2xx with a body that is not JSON, and the call
    raises [JSONDecodeError]. *)
Theorem request_failures_propagate `{Env} (s s1 : State) (tok : json)
    (method endpoint : string) (params json_data : option (gmap string json)) :
  get_access_token s = (Return tok, s1) ->
  upper method = "GET" \/ upper method = "POST" ->
  let req := built_request (upper method) tok endpoint params json_data in
  let call := make_api_request method endpoint params json_data s in
  (forall msg, transport (length (sent s1)) req = Fails msg ->
     call = (Raise (TransportError msg), requested req s1)) /\
  (forall r text, transport (length (sent s1)) req = Answers r ->
     is_success r = true -> content r = RawBody text ->
     call = (Raise JSONDecodeError, requested req s1)).
Proof.
  intros Ht Hm req call. subst call.
  rewrite (make_api_request_outcome s s1 tok _ _ _ _ Ht Hm). fold req.
  unfold outcome. split.
  - intros msg ->. reflexivity.
  - intros r text -> -> Hb. unfold response_json. rewrite Hb. reflexivity.
Qed.

Lemma request_failures_propagate_witness :
  (@make_api_request (demo_env steady_clock (fun _ _ => Fails "timeout"))
     "GET" "/za/pb/v1/accounts" None None warm_state).1
  = Raise (TransportError "timeout") /\
  (@make_api_request
     (demo_env steady_clock (always (mkResponse 204 (RawBody ""))))
     "GET" "/za/pb/v1/accounts" None None warm_state).1
  = Raise JSONDecodeError.
Proof.
  split.
  - exact (f_equal fst (proj1 (@request_failures_propagate
             (demo_env steady_clock (fun _ _ => Fails "timeout"))
             warm_state (ticked warm_state) (JStr "cached")
             "GET" "/za/pb/v1/accounts" None None
             eq_refl (or_introl eq_refl)) "timeout" eq_refl)).
  - exact (f_equal fst (proj2 (@request_failures_propagate
             (demo_env steady_clock (always (mkResponse 204 (RawBody ""))))
             warm_state (ticked warm_state) (JStr "cached")
             "GET" "/za/pb/v1/accounts" None None
             eq_refl (or_introl eq_refl))
             (mkResponse 204 (RawBody "")) "" eq_refl eq_refl eq_refl)).
Defined.



(** A call touches the token cache and the clock only through
    [get_access_token], and after it sends at most one request: there is no
    retry. *)
Theorem request_helper_frame `{Env} (s : State)
    (method endpoint : string) (params json_data : option (gmap string json)) :
  let after_token := (get_access_token s).2 in
  let after_call := (make_api_request method endpoint params json_data s).2 in
  access_token after_call = access_token after_token /\
  token_expiry after_call = token_expiry after_token /\
  ticks after_call = ticks after_token /\
  exists l : list Request,
    sent after_call = (sent after_token ++ l)%list /\ (length l <= 1)%nat.
Proof.
  intros after_token after_call. subst after_token after_call.
  destruct (get_access_token s) as [[tok|e] s1] eqn:Ht.
  - rewrite (make_api_request_cases s s1 tok _ _ _ _ Ht).
    destruct (bool_decide _).
    + unfold outcome. destruct (transport _ _); simpl;
        repeat split; try reflexivity; eexists [_]; split;
        try reflexivity; simpl; lia.
    + simpl. repeat split; try reflexivity. exists [].
      rewrite app_nil_r. split; [reflexivity | simpl; lia].
  - rewrite (make_api_request_token_error s s1 e _ _ _ _ Ht). simpl.
    repeat split; try reflexivity. exists [].
    rewrite app_nil_r. split; [reflexivity | simpl; lia].
Qed.

(** Whatever is called, everything that goes out goes to a URL under
    [BASE_URL], and the client credentials and the subscription key travel
    in the token request only. *)
Theorem credentials_go_to_the_token_endpoint_only `{Env} (s : State)
    (method endpoint : string) (params json_data : option (gmap string json)) :
  Forall outbound_ok (sent s) ->
  Forall outbound_ok (sent (get_access_token s).2) /\
  Forall outbound_ok
    (sent (make_api_request method endpoint params json_data s).2).
Proof.
  intros Hs.
  assert (Htok : outbound_ok token_request).
  { split; [eexists; reflexivity | left; reflexivity]. }
  assert (Hget : Forall outbound_ok (sent (get_access_token s).2)).
  { destruct (cache_usable (access_token s) (token_expiry s)
                (clock (ticks s))) eqn:Hc.
    - rewrite (get_access_token_hit s Hc). exact Hs.
    - rewrite (get_access_token_miss s Hc), token_resume_sent. simpl.
      apply Forall_app. split; [exact Hs|].
      apply Forall_cons. split; [exact Htok | apply Forall_nil_2]. }
  split; [exact Hget|].
  destruct (get_access_token s) as [[tok|e] s1] eqn:Ht; simpl in Hget.
  - rewrite (make_api_request_cases s s1 tok _ _ _ _ Ht).
    destruct (bool_decide _) eqn:Hm; [|exact Hget].
    rewrite outcome_sent. apply Forall_app. split; [exact Hget|].
    apply Forall_cons. split; [|apply Forall_nil_2]. split.
    + unfold built_request. destruct (String.eqb _ _); eexists; reflexivity.
    + right. unfold built_request, bearer_headers.
      destruct (String.eqb _ _); simpl; split; try reflexivity;
        simplify_map_eq; reflexivity.
  - rewrite (make_api_request_token_error s s1 e _ _ _ _ Ht). exact Hget.
Qed.

Lemma credentials_go_to_the_token_endpoint_only_witness :
  let E := demo_env steady_clock fresh_tokens in
  Forall (@outbound_ok E) (sent (@get_access_token E initial_state).2) /\
  Forall (@outbound_ok E)
    (sent (@make_api_request E "GET" "/za/pb/v1/accounts" None None
             initial_state).2).
Proof.
  intros E.
  apply (@credentials_go_to_the_token_endpoint_only E initial_state).
  constructor.
Defined.

(** * Properties of the other tools *)

(** [get_documents] sends both dates whatever they are, an empty string
    included: one GET to the documents path whose query has "fromDate" and
    "toDate" and no other key. *)
Theorem documents_sends_both_dates `{Env} (s s1 : State) (tok : json)
    (accountId fromDate toDate : string) :
  get_access_token s = (Return tok, s1) ->
  exists (req : Request) (params : gmap string json),
    sent (get_documents accountId fromDate toDate s).2
    = (sent s1 ++ [req])%list /\
    req_method req = "GET" /\
    req_url req
    = BASE_URL +:+ "/za/pb/v1/accounts/" +:+ accountId +:+ "/documents" /\
    req_json req = None /\
    req_params req = Some params /\
    params !! "fromDate" = Some (JStr fromDate) /\
    params !! "toDate" = Some (JStr toDate) /\
    (forall k : string, k <> "fromDate" -> k <> "toDate" -> params !! k = None).
Proof.
  intros Ht. unfold get_documents. rewrite dumps_state.
  rewrite (make_api_request_outcome s s1 tok "GET" _ _ _ Ht (or_introl eq_refl)).
  rewrite outcome_sent. simpl.
  eexists _, _. do 5 (split; [reflexivity|]).
  unfold of_str. repeat split; intros; simplify_map_eq; reflexivity.
Qed.

Lemma documents_sends_both_dates_witness :
  let E := demo_env steady_clock (always balance_ok) in
  exists (req : Request) (params : gmap string json),
    sent (@get_documents E "acc1" "" "" warm_state).2 = [req] /\
    req_method req = "GET" /\
    req_url req
    = "https://openapisandbox.investec.com/za/pb/v1/accounts/acc1/documents" /\
    req_json req = None /\
    req_params req = Some params /\
    params !! "fromDate" = Some (JStr "") /\
    params !! "toDate" = Some (JStr "") /\
    (forall k : string, k <> "fromDate" -> k <> "toDate" -> params !! k = None).
Proof.
  intros E.
  exact (@documents_sends_both_dates E warm_state (ticked warm_state)
           (JStr "cached") "acc1" "" "" eq_refl).
Defined.

(** [pay_multiple] sends one POST to the paymultiple path, with the
    Content-Type header, no query, and a JSON body whose only key,
    "paymentList", holds the payments as given, an empty list included. *)
Theorem pay_multiple_request `{Env} (s s1 : State) (tok : json)
    (accountId : string) (paymentList : list (gmap string json)) :
  get_access_token s = (Return tok, s1) ->
  exists (req : Request) (data : gmap string json),
    sent (pay_multiple accountId paymentList s).2 = (sent s1 ++ [req])%list /\
    req_method req = "POST" /\
    req_url req
    = BASE_URL +:+ "/za/pb/v1/accounts/" +:+ accountId +:+ "/paymultiple" /\
    req_headers req !! "Content-Type" = Some "application/json" /\
    req_params req = None /\
    req_json req = Some data /\
    data !! "paymentList" = Some (JList (JDict <$> paymentList)) /\
    (forall k : string, k <> "paymentList" -> data !! k = None).
Proof.
  intros Ht. unfold pay_multiple. rewrite dumps_state.
  rewrite (make_api_request_outcome s s1 tok "POST" _ _ _ Ht (or_intror eq_refl)).
  rewrite outcome_sent. simpl.
  eexists _, _. do 3 (split; [reflexivity|]).
  unfold bearer_headers.
  repeat split; intros; simplify_map_eq; reflexivity.
Qed.

Lemma pay_multiple_request_witness :
  let E := demo_env steady_clock (always balance_ok) in
  exists (req : Request) (data : gmap string json),
    sent (@pay_multiple E "acc1" [] warm_state).2 = [req] /\
    req_method req = "POST" /\
    req_url req
    = "https://openapisandbox.investec.com/za/pb/v1/accounts/acc1/paymultiple" /\
    req_headers req !! "Content-Type" = Some "application/json" /\
    req_params req = None /\
    req_json req = Some data /\
    data !! "paymentList" = Some (JList []) /\
    (forall k : string, k <> "paymentList" -> data !! k = None).
Proof.
  intros E.
  exact (@pay_multiple_request E warm_state (ticked warm_state)
           (JStr "cached") "acc1" [] eq_refl).
Defined.

Lemma plain_get_sent `{Env} (s s1 : State) (tok : json) (path : string) :
  get_access_token s = (Return tok, s1) ->
  sent ((result ← make_api_request "GET" path None None;
         mret (json_dumps result)) s).2
  = (sent s1 ++
     [mkRequest "GET" (BASE_URL +:+ path) None (bearer_headers tok)
        None None None])%list.
Proof.
  intros Ht. rewrite dumps_state.
  rewrite (make_api_request_outcome s s1 tok "GET" _ _ _ Ht (or_introl eq_refl)).
  rewrite outcome_sent. reflexivity.
Qed.

(** The tools that only read: once the token is there each sends exactly
    one request, a GET to its own path under [BASE_URL] with the two bearer
    headers, and with no credentials, query, form data or body. *)
Theorem read_tools_send_one_plain_get `{Env} (s s1 : State) (tok : json)
    (accountId profileId documentType documentDate : string) :
  get_access_token s = (Return tok, s1) ->
  let sends (tool : Py string) (path : string) :=
    sent (tool s).2
    = (sent s1 ++
       [mkRequest "GET" (BASE_URL +:+ path) None (bearer_headers tok)
          None None None])%list in
  sends get_accounts "/za/pb/v1/accounts" /\
  sends (get_account_balance accountId)
    ("/za/pb/v1/accounts/" +:+ accountId +:+ "/balance") /\
  sends (get_pending_transactions accountId)
    ("/za/pb/v1/accounts/" +:+ accountId +:+ "/pending-transactions") /\
  sends get_profiles "/za/pb/v1/profiles" /\
  sends (get_profile_accounts profileId)
    ("/za/pb/v1/profiles/" +:+ profileId +:+ "/accounts") /\
  sends get_beneficiaries "/za/pb/v1/accounts/beneficiaries" /\
  sends get_beneficiary_categories "/za/pb/v1/accounts/beneficiarycategories" /\
  sends (get_profile_beneficiaries profileId accountId)
    ("/za/pb/v1/profiles/" +:+ profileId +:+ "/accounts/" +:+ accountId +:+
     "/beneficiaries") /\
  sends (get_authorisation_setup_details profileId accountId)
    ("/za/pb/v1/profiles/" +:+ profileId +:+ "/accounts/" +:+ accountId +:+
     "/authorisationsetupdetails") /\
  sends (get_document accountId documentType documentDate)
    ("/za/pb/v1/accounts/" +:+ accountId +:+ "/document/" +:+ documentType +:+
     "/" +:+ documentDate).
Proof.
  intros Ht sends. subst sends.
  repeat split; apply (plain_get_sent s s1 tok _ Ht).
Qed.

Lemma read_tools_send_one_plain_get_witness :
  let E := demo_env steady_clock (always balance_ok) in
  req_url <$> sent (@get_document E "acc1" "Statement" "2025-01-31"
                      warm_state).2
  = ["https://openapisandbox.investec.com/za/pb/v1/accounts/acc1/document/Statement/2025-01-31"].
Proof.
  intros E.
  exact (f_equal (fmap req_url)
    (proj2 (proj2 (proj2 (proj2 (proj2 (proj2 (proj2 (proj2 (proj2
      (@read_tools_send_one_plain_get E warm_state (ticked warm_state)
         (JStr "cached") "acc1" "p1" "Statement" "2025-01-31"
         eq_refl))))))))))).
Defined.

(** * The lines printed at import time *)








(** With the secret "secret" and the key "key" of the scenarios: the
    printed head and tail are the whole secret, and the key is there
    twice. *)
Example startup_lines_of_the_scenario :
  @startup_debug (demo_env steady_clock fresh_tokens)
  = [ "DEBUG - Loaded credentials:";
      "DEBUG - CLIENT_ID: client";
      "DEBUG - CLIENT_SECRET: sec...ret";
      "DEBUG - API_KEY: key...key";
      "DEBUG - BASE_URL: https://openapisandbox.investec.com" ].
Proof. reflexivity. Qed.

(** * A first call, end to end *)

(** A call of the request helper that finds the cache unusable sends two
    requests and no more: the token request, then the request to the API,
    whose Authorization header carries the token the token endpoint has
    just given. *)
Theorem fetched_token_is_the_one_sent `{Env} (s : State) (r : Response)
    (d : gmap string json) (tok : json) (n : Z)
    (method endpoint : string) (params json_data : option (gmap string json)) :
  cache_usable (access_token s) (token_expiry s) (clock (ticks s)) = false ->
  transport (length (sent s)) token_request = Answers r ->
  is_success r = true ->
  content r = JsonBody (JDict d) ->
  d !! "access_token" = Some tok ->
  d !! "expires_in" = Some (JInt n) ->
  0 <= clock (S (ticks s)) + (n - 60) * 1000000 <= DATETIME_MAX ->
  upper method = "GET" \/ upper method = "POST" ->
  exists req : Request,
    sent (make_api_request method endpoint params json_data s).2
    = (sent s ++ [token_request; req])%list /\
    req_url req = BASE_URL +:+ endpoint /\
    req_headers req !! "Authorization"
    = Some ("Bearer " +:+ format_value tok).
Proof.
  intros Hc Ht Hs Hb Htok He Hr Hm.
  assert (Hget : get_access_token s
    = (Return tok,
       mkState tok (Some (clock (S (ticks s)) + (n - 60) * 1000000))
         (S (S (ticks s))) (sent s ++ [token_request]))).
  { rewrite (get_access_token_miss s Hc), (token_resume_answers _ _ r Ht).
    exact (store_token_stores r (requested token_request (ticked s)) d tok n
             Hs Hb Htok He Hr). }
  rewrite (make_api_request_outcome s _ tok _ _ _ _ Hget Hm).
  rewrite outcome_sent. cbn [sent]. rewrite <- app_assoc.
  eexists. split; [reflexivity|].
  unfold built_request, bearer_headers.
  destruct (String.eqb _ _); simpl; split; try reflexivity;
    simplify_map_eq; reflexivity.
Qed.

Lemma fetched_token_is_the_one_sent_witness :
  let E := demo_env steady_clock fresh_tokens in
  exists req : Request,
    sent (@make_api_request E "GET" "/za/pb/v1/accounts" None None
            initial_state).2
    = [@token_request E; req] /\
    req_url req = "https://openapisandbox.investec.com/za/pb/v1/accounts" /\
    req_headers req !! "Authorization" = Some "Bearer token-0".
Proof.
  intros E.
  refine (@fetched_token_is_the_one_sent E initial_state
            (mkResponse 200 (JsonBody (JDict
               {[ "access_token" := JStr "token-0";
                  "expires_in" := JInt 300 ]})))
            _ (JStr "token-0") 300 "GET" "/za/pb/v1/accounts" None None
            eq_refl eq_refl eq_refl eq_refl eq_refl eq_refl _
            (or_introl eq_refl)).
  vm_compute. split; discriminate.
Defined.

(** * Further properties of concurrent calls *)




